(** * go-rest-api: the book registry of [main.go]

    A shallow embedding of the five gin handlers of [main.go] and of the
    package-level slice [books] they share and of the route table of
    [main], followed by the properties of the registry that the
    specification states about them and by further properties of the
    handlers, alone and composed.

    - Go's [int] is modelled as [Z] with the two's-complement wrap-around
      of a 64-bit target written out ([GoInt]).
    - The package-level variable [books] is threaded explicitly: a handler
      takes the current slice and returns the slice it leaves behind.
    - A [*book] obtained as [&books[i]] is the index [i]; reading through
      it is a lookup in the current slice, writing through it an update of
      the slice at [i].
    - Of [gin.Context] only what the handlers use is kept: path parameters,
      the URL query, the outcome of binding the request body, and the
      response written while the handler runs: what the handler hands to
      [IndentedJSON], or the status [BindJSON] aborts the request with
      when the body does not bind. *)

From Stdlib Require Import ZArith Lia.
From stdpp Require Import base option list strings.

Local Open Scope string_scope.
Local Open Scope Z_scope.
Local Open Scope list_scope.

(** ** Go's [int] *)

Module GoInt.

Definition bits : Z := 64.
Definition MinInt : Z := - 2 ^ (bits - 1).
Definition MaxInt : Z := 2 ^ (bits - 1) - 1.

(** The values an [int] variable can hold. *)
Definition in_range (z : Z) : Prop := MinInt <= z <= MaxInt.

(** Reduction of a mathematical integer to the [int] it wraps to. *)
Definition wrap (z : Z) : Z := (z - MinInt) mod 2 ^ bits + MinInt.

Definition add (a b : Z) : Z := wrap (a + b).
Definition sub (a b : Z) : Z := wrap (a - b).

#[global] Instance in_range_dec z : Decision (in_range z).
Proof. unfold in_range. apply _. Defined.

End GoInt.

(** ** The data model *)

(** [type book struct] *)
Record book : Type := Book {
  ID : string;
  Title : string;
  Author : string;
  Quantity : Z
}.

#[global] Instance book_eq_dec : EqDecision book.
Proof. solve_decision. Defined.

(** Assignment to the field [Quantity] of a book. *)
Definition set_Quantity (q : Z) (b : book) : book :=
  {| ID := ID b; Title := Title b; Author := Author b; Quantity := q |}.

(** [var books = []book{...}]: the value the slice is initialised with. *)
Definition books : list book :=
  [ Book "1" "Golang pointers" "Mr. Golang" 2;
    Book "2" "Goroutines" "Mr. Goroutine" 20;
    Book "3" "Golang routers" "Mr. Router" 30;
    Book "4" "Golang concurrency" "Mr. Currency" 40 ].

(** ** What the handlers see of gin *)

(** [net/http] status codes used by the handlers. *)
Definition StatusOK : Z := 200.
Definition StatusCreated : Z := 201.
Definition StatusBadRequest : Z := 400.
Definition StatusNotFound : Z := 404.

(** What a response body holds. The values handed to [IndentedJSON]: a
    slice of books, one book (or a pointer to one, serialised alike), a
    string, and a [gin.H] literal with its entries in source order. And
    [NoBody]: a status written with nothing after it. *)
#[local] Set Warnings "-register-all".
Inductive JSON : Type :=
| JBooks (bs : list book)
| JBook (b : book)
| JString (s : string)
| H (entries : list (string * JSON))
| NoBody.

(** A written response. [IndentedJSON code obj] is the one
    [c.IndentedJSON(code, obj)] writes. *)
Record Response : Type := IndentedJSON {
  status : Z;
  body : JSON
}.

(** [c.AbortWithStatus(code)]: the status is written and the request
    aborted; no body follows. *)
Definition AbortWithStatus (code : Z) : Response :=
  {| status := code; body := NoBody |}.

(** The request side of [*gin.Context]. [Payload] is the outcome of
    [BindJSON] into a [book]: [None] when it returns an error. *)
Record Context : Type := mkContext {
  Params : list (string * string);
  Query : list (string * string);
  Payload : option book
}.

(** First value bound to [key] in a list of key/value pairs. *)
Fixpoint assoc (key : string) (kvs : list (string * string)) : option string :=
  match kvs with
  | [] => None
  | (k, v) :: rest => if decide (k = key) then Some v else assoc key rest
  end.

(** [c.Param(key)]: the path parameter, or the empty string. *)
Definition Param (c : Context) (key : string) : string :=
  default "" (assoc key (Params c)).

(** [c.GetQuery(key)]: the value and [ok], folded into an option. *)
Definition GetQuery (c : Context) (key : string) : option string :=
  assoc key (Query c).

(** [c.BindJSON(&newBook)]: the decoded book, or [None] for [err != nil].
    [BindJSON] is gin's [MustBindWith]: when decoding fails it does not
    only return the error, it first aborts the request with
    [AbortWithError(http.StatusBadRequest, err)], that is
    [AbortWithStatus StatusBadRequest]; a handler that then returns
    leaves that response standing. *)
Definition BindJSON (c : Context) : option book := Payload c.

(** What a handler leaves behind: the response written while it ran, if
    one was written, and the slice [books]. *)
Definition Handler : Type := Context -> list book -> option Response * list book.

(** ** The handlers *)

(** [getBooks] *)
Definition getBooks : Handler := fun c bs =>
  (Some (IndentedJSON StatusOK (JBooks bs)), bs).

(** [createBook]. On [err != nil] the handler returns without a write
    of its own; the response is the one the failed [BindJSON] wrote. *)
Definition createBook : Handler := fun c bs =>
  match BindJSON c with
  | None => (Some (AbortWithStatus StatusBadRequest), bs)
  | Some newBook =>
      let bs := bs ++ [newBook] in
      (Some (IndentedJSON StatusCreated (JBook newBook)), bs)
  end.

(** The loop of [getBookById], entered at index [i] with [bs] the part
    of the slice from [i] on. *)
Fixpoint getBookById_from (i : nat) (bs : list book) (id : string) : option nat :=
  match bs with
  | [] => None
  | b :: rest =>
      if decide (ID b = id) then Some i else getBookById_from (S i) rest id
  end.

(** [getBookById]: [inl i] for [(&books[i], nil)], [inr msg] for
    [(nil, errors.New(msg))]. *)
Definition getBookById (id : string) (bs : list book) : nat + string :=
  match getBookById_from 0 bs id with
  | Some i => inl i
  | None => inr "book not found"
  end.

(** In the three handlers below the pointer returned by [getBookById]
    is dereferenced by a lookup at its index. The branch where that
    lookup finds nothing stands for a dereference outside the slice; the
    scan only returns indices it has visited, so the branch is never
    taken ([getBookById_inl]). *)

(** [bookById] *)
Definition bookById : Handler := fun c bs =>
  let id := Param c "id" in
  match getBookById id bs with
  | inr _ =>
      (Some (IndentedJSON StatusNotFound (H [("message", JString "Book not found")])), bs)
  | inl i =>
      match bs !! i with
      | None => (None, bs)
      | Some book => (Some (IndentedJSON StatusOK (JBook book)), bs)
      end
  end.

(** [checkoutBook] *)
Definition checkoutBook : Handler := fun c bs =>
  match GetQuery c "id" with
  | None =>
      (Some (IndentedJSON StatusBadRequest
               (H [("message", JString "missing query parameter 'id' ")])), bs)
  | Some id =>
      match getBookById id bs with
      | inr _ =>
          (Some (IndentedJSON StatusNotFound (H [("message", JString "book not found")])), bs)
      | inl i =>
          match bs !! i with
          | None => (None, bs)
          | Some book =>
              if decide (Quantity book <= 0) then
                (Some (IndentedJSON StatusBadRequest
                         (H [("message",
                              JString "book is not available at the moment, check in again later")])),
                 bs)
              else
                let book := set_Quantity (GoInt.sub (Quantity book) 1) book in
                let bs := <[i := book]> bs in
                (Some (IndentedJSON StatusOK
                         (H [("message", JString "success"); ("data", JBook book)])),
                 bs)
          end
      end
  end.

(** [returnBook] *)
Definition returnBook : Handler := fun c bs =>
  match GetQuery c "id" with
  | None =>
      (Some (IndentedJSON StatusBadRequest
               (H [("message", JString "missing query parameter 'id'")])), bs)
  | Some id =>
      match getBookById id bs with
      | inr _ =>
          (Some (IndentedJSON StatusNotFound (H [("message", JString "book not found")])), bs)
      | inl i =>
          match bs !! i with
          | None => (None, bs)
          | Some book =>
              let book := set_Quantity (GoInt.add (Quantity book) 1) book in
              let bs := <[i := book]> bs in
              (Some (IndentedJSON StatusOK (JBook book)), bs)
          end
      end
  end.

(** The slice after a run of requests, each served by its handler. *)
Definition serve (bs : list book) (reqs : list (Handler * Context)) : list book :=
  foldl (fun bs hc => snd (fst hc (snd hc) bs)) bs reqs.

(** A request to [checkoutBook] or [returnBook] carrying [id] and
    nothing else. *)
Definition with_id (id : string) : Context :=
  mkContext [] [("id", id)] None.

(** A request to [createBook] whose body binds to [b]. *)
Definition with_book (b : book) : Context :=
  mkContext [] [] (Some b).

(** [main]: the routes registered on the router, in source order, each
    with its method, its pattern and its handler. *)
Definition routes : list (string * string * Handler) :=
  [ ("GET", "/books", getBooks);
    ("POST", "/books", createBook);
    ("GET", "/books/:id", bookById);
    ("PATCH", "/checkout", checkoutBook);
    ("PATCH", "/return", returnBook) ].

(** [h] is the handler of some route of [main]. *)
Definition registered (h : Handler) : Prop :=
  exists m p : string, (m, p, h) ∈ routes.

(** ** Vocabulary of the statements *)

(** [first_match id bs i b]: [b] sits at index [i] of the slice, carries
    the identifier [id], and no record before it does. *)
Definition first_match (id : string) (bs : list book) (i : nat) (b : book) : Prop :=
  bs !! i = Some b /\ ID b = id /\
  forall (j : nat) (b' : book), (j < i)%nat -> bs !! j = Some b' -> ID b' <> id.

(** No record of the slice carries the identifier [id]. *)
Definition absent (id : string) (bs : list book) : Prop :=
  forall b : book, b ∈ bs -> ID b <> id.

(** [bs'] is [bs] but for the quantity of the record at index [i]: the
    same length, the same record at every other index, and at [i] a
    record with the same identifier, title and author. *)
Definition quantity_only (i : nat) (bs bs' : list book) : Prop :=
  length bs' = length bs /\
  (forall j : nat, j <> i -> bs' !! j = bs !! j) /\
  exists b b' : book,
    bs !! i = Some b /\ bs' !! i = Some b' /\
    ID b' = ID b /\ Title b' = Title b /\ Author b' = Author b.

(** The message of a [gin.H{"message": ...}] body. *)
Definition message (r : Response) : option string :=
  match body r with
  | H (("message", JString s) :: _) => Some s
  | _ => None
  end.

(** The reading of the checkout rule that quantifies over every record
    of the slice: a request carrying the identifier of the record at
    index [i] decrements that very record when its quantity is positive
    and is refused otherwise. *)
Definition checkout_every_record : Prop :=
  forall (bs : list book) (i : nat) (b : book),
    bs !! i = Some b -> GoInt.in_range (Quantity b) ->
    let (r, bs') := checkoutBook (with_id (ID b)) bs in
    if decide (0 < Quantity b)
    then status <$> r = Some StatusOK /\
         Quantity <$> bs' !! i = Some (Quantity b - 1)
    else status <$> r = Some StatusBadRequest /\
         Quantity <$> bs' !! i = Some (Quantity b).

(** The reading of the return rule that quantifies over every record of
    the slice and every quantity an [int] can hold: the record at index
    [i] ends with its quantity plus one. *)
Definition return_every_record : Prop :=
  forall (bs : list book) (i : nat) (b : book),
    bs !! i = Some b -> GoInt.in_range (Quantity b) ->
    let (r, bs') := returnBook (with_id (ID b)) bs in
    status <$> r = Some StatusOK /\
    Quantity <$> bs' !! i = Some (Quantity b + 1).

(** What identifies a record apart from its quantity. *)
Definition identity (b : book) : string * string * string :=
  (ID b, Title b, Author b).

(** What [checkoutBook] makes of the quantity of the record it resolves:
    the guard, then the decrement. *)
Definition checkout_step (q : Z) : Z :=
  if decide (q <= 0) then q else GoInt.sub q 1.

(** What [returnBook] makes of the quantity of the record it resolves. *)
Definition return_step (q : Z) : Z := GoInt.add q 1.

(** The slice with [f] applied to the quantity of the record
    [getBookById] resolves [id] to, or the slice itself when it resolves
    to none. *)
Definition adjust (f : Z -> Z) (id : string) (bs : list book) : list book :=
  match getBookById id bs with
  | inl i =>
      match bs !! i with
      | Some b => <[i := set_Quantity (f (Quantity b)) b]> bs
      | None => bs
      end
  | inr _ => bs
  end.

(** The reading of a failed create as a silent one: when the body does
    not bind, no status and no body are written, and the slice is the
    one the handler was given. *)
Definition create_bind_error_silent : Prop :=
  forall (c : Context) (bs : list book),
    BindJSON c = None -> createBook c bs = (None, bs).

(** ** Arithmetic of [int] *)

Lemma GoInt_wrap_in_range (z : Z) : GoInt.in_range z -> GoInt.wrap z = z.
Proof.
  unfold GoInt.in_range, GoInt.wrap, GoInt.MinInt, GoInt.MaxInt, GoInt.bits.
  change (2 ^ (64 - 1)) with 9223372036854775808.
  change (2 ^ 64) with 18446744073709551616.
  intros Hz. rewrite Z.mod_small; lia.
Qed.

Lemma GoInt_sub_1 (q : Z) :
  GoInt.in_range q -> 0 < q -> GoInt.sub q 1 = q - 1.
Proof.
  intros Hq Hpos. apply GoInt_wrap_in_range.
  revert Hq. unfold GoInt.in_range, GoInt.MinInt, GoInt.MaxInt, GoInt.bits.
  change (2 ^ (64 - 1)) with 9223372036854775808. lia.
Qed.

Lemma GoInt_add_1 (q : Z) :
  GoInt.MinInt <= q < GoInt.MaxInt -> GoInt.add q 1 = q + 1.
Proof.
  intros Hq. apply GoInt_wrap_in_range.
  revert Hq. unfold GoInt.in_range, GoInt.MinInt, GoInt.MaxInt, GoInt.bits.
  change (2 ^ (64 - 1)) with 9223372036854775808. lia.
Qed.

(** At the top of the range the increment comes back at the bottom. *)
Lemma GoInt_add_1_MaxInt : GoInt.add GoInt.MaxInt 1 = GoInt.MinInt.
Proof. reflexivity. Qed.

(** ** The scan of [getBookById] *)

Section Scan.

Variable id : string.

Lemma getBookById_from_inv (bs : list book) (i k : nat) :
  getBookById_from i bs id = Some k ->
  exists (n : nat) (b : book), k = (i + n)%nat /\ first_match id bs n b.
Proof.
  revert i. induction bs as [|a rest IH]; intros i; simpl; [discriminate|].
  destruct (decide (ID a = id)) as [Heq|Hne].
  - intros [= <-]. exists 0%nat, a. repeat split; [lia|done|].
    intros j b' Hj. lia.
  - intros Hk. destruct (IH _ Hk) as (n & b & -> & Hn & Hid & Hbefore).
    exists (S n), b. repeat split; [lia|done|done|].
    intros [|j] b' Hj; simpl; [by intros [= <-]|].
    apply Hbefore. lia.
Qed.

Lemma getBookById_from_first (bs : list book) (i n : nat) (b : book) :
  first_match id bs n b -> getBookById_from i bs id = Some (i + n)%nat.
Proof.
  revert i n. induction bs as [|a rest IH]; intros i n (Hn & Hid & Hbefore).
  - by rewrite lookup_nil in Hn.
  - simpl. destruct n as [|n]; simpl in Hn.
    + injection Hn as ->. rewrite decide_True by done. f_equal. lia.
    + rewrite decide_False by (apply (Hbefore 0%nat); [lia|done]).
      rewrite (IH (S i) n); [f_equal; lia|].
      repeat split; [done|done|].
      intros j b' Hj. apply (Hbefore (S j)). lia.
Qed.

Lemma getBookById_from_absent (bs : list book) (i : nat) :
  getBookById_from i bs id = None <-> absent id bs.
Proof.
  revert i. induction bs as [|a rest IH]; intros i; simpl.
  - split; [|done]. intros _ b Hb. by apply not_elem_of_nil in Hb.
  - destruct (decide (ID a = id)) as [Heq|Hne].
    + split; [discriminate|]. intros Habs. destruct (Habs a); [left|done].
    + rewrite IH. split.
      * intros Habs b [->|Hb]%elem_of_cons; [done|by apply Habs].
      * intros Habs b Hb. apply Habs. by right.
Qed.

Lemma getBookById_found (bs : list book) (i : nat) (b : book) :
  first_match id bs i b -> getBookById id bs = inl i.
Proof.
  intros Hfm. unfold getBookById.
  by rewrite (getBookById_from_first bs 0 i b Hfm).
Qed.

Lemma getBookById_not_found (bs : list book) :
  absent id bs -> getBookById id bs = inr "book not found".
Proof.
  intros Habs. unfold getBookById.
  by rewrite (proj2 (getBookById_from_absent bs 0) Habs).
Qed.

(** The pointer [getBookById] returns is never dangling. *)
Lemma getBookById_inl (bs : list book) (i : nat) :
  getBookById id bs = inl i -> exists b : book, first_match id bs i b.
Proof.
  unfold getBookById.
  destruct (getBookById_from 0 bs id) as [k|] eqn:Hk; [|discriminate].
  intros [= <-].
  destruct (getBookById_from_inv _ _ _ Hk) as (n & b & -> & Hfm). by exists b.
Qed.

(** A slice that holds a record with identifier [id] has a first one. *)
Lemma first_match_exists (bs : list book) :
  (exists b : book, b ∈ bs /\ ID b = id) ->
  exists (i : nat) (b : book), first_match id bs i b.
Proof.
  intros (b & Hb & Hid).
  destruct (getBookById_from 0 bs id) as [k|] eqn:Hk.
  - destruct (getBookById_from_inv _ _ _ Hk) as (n & b' & _ & Hfm). eauto.
  - apply getBookById_from_absent in Hk. by destruct (Hk b Hb).
Qed.

End Scan.

(** Where identifiers are unique, every record is the first match of its
    own identifier. *)
Lemma first_match_NoDup (bs : list book) (i : nat) (b : book) :
  NoDup (ID <$> bs) -> bs !! i = Some b -> first_match (ID b) bs i b.
Proof.
  intros Hnd Hi. repeat split; [done|].
  intros j b' Hj Hj' Heq.
  assert (j = i) as ->; [|lia].
  eapply NoDup_lookup; [exact Hnd| |].
  - by rewrite list_lookup_fmap, Hj'.
  - by rewrite list_lookup_fmap, Hi, Heq.
Qed.

(** ** The handlers on a resolved identifier *)

Section Resolved.

Variables (c : Context) (bs : list book) (id : string).
Hypothesis Hquery : GetQuery c "id" = Some id.

Lemma checkoutBook_resolved (i : nat) (b : book) :
  first_match id bs i b ->
  checkoutBook c bs =
    if decide (Quantity b <= 0) then
      (Some (IndentedJSON StatusBadRequest
               (H [("message",
                    JString "book is not available at the moment, check in again later")])),
       bs)
    else
      let b' := set_Quantity (GoInt.sub (Quantity b) 1) b in
      (Some (IndentedJSON StatusOK
               (H [("message", JString "success"); ("data", JBook b')])),
       <[i := b']> bs).
Proof.
  intros Hfm. unfold checkoutBook.
  rewrite Hquery, (getBookById_found id bs i b Hfm).
  destruct Hfm as (-> & _). done.
Qed.

Lemma returnBook_resolved (i : nat) (b : book) :
  first_match id bs i b ->
  returnBook c bs =
    let b' := set_Quantity (GoInt.add (Quantity b) 1) b in
    (Some (IndentedJSON StatusOK (JBook b')), <[i := b']> bs).
Proof.
  intros Hfm. unfold returnBook.
  rewrite Hquery, (getBookById_found id bs i b Hfm).
  destruct Hfm as (-> & _). done.
Qed.

End Resolved.

(** ** The scenarios of the specification *)

Example scenario_initial_list (c : Context) :
  fst (getBooks c books) =
    Some (IndentedJSON 200
            (JBooks [ Book "1" "Golang pointers" "Mr. Golang" 2;
                      Book "2" "Goroutines" "Mr. Goroutine" 20;
                      Book "3" "Golang routers" "Mr. Router" 30;
                      Book "4" "Golang concurrency" "Mr. Currency" 40 ])).
Proof. reflexivity. Qed.

Example scenario_checkout_1 :
  checkoutBook (with_id "1") books =
    (Some (IndentedJSON 200
             (H [("message", JString "success");
                 ("data", JBook (Book "1" "Golang pointers" "Mr. Golang" 1))])),
     [ Book "1" "Golang pointers" "Mr. Golang" 1;
       Book "2" "Goroutines" "Mr. Goroutine" 20;
       Book "3" "Golang routers" "Mr. Router" 30;
       Book "4" "Golang concurrency" "Mr. Currency" 40 ]).
Proof. vm_compute. reflexivity. Qed.

(** Two checkouts empty the two copies of book "1"; the third is refused
    and changes nothing. *)
Example scenario_checkout_exhausted :
  let bs := serve books [(checkoutBook, with_id "1"); (checkoutBook, with_id "1")] in
  Quantity <$> bs !! 0%nat = Some 0 /\
  checkoutBook (with_id "1") bs =
    (Some (IndentedJSON 400
             (H [("message",
                  JString "book is not available at the moment, check in again later")])),
     bs).
Proof. vm_compute. split; reflexivity. Qed.

Example scenario_get_999 :
  fst (bookById (mkContext [("id", "999")] [] None) books) =
    Some (IndentedJSON 404 (H [("message", JString "Book not found")])).
Proof. vm_compute. reflexivity. Qed.

(** A second record with an identifier already in the slice is out of
    reach of [checkoutBook] and [returnBook]: both act on the first. *)
Example shadowed_record_untouched :
  let dup := Book "1" "Golang pointers" "Mr. Golang" 5 in
  snd (checkoutBook (with_id "1") (books ++ [dup])) !! 4%nat = Some dup /\
  snd (returnBook (with_id "1") (books ++ [dup])) !! 4%nat = Some dup.
Proof. vm_compute. split; reflexivity. Qed.

(** ** Checkout *)

(** C1, as worded, at a concrete slice. After a create that repeats the
    identifier "1", the slice holds a fifth record with quantity 5. A
    checkout of "1" succeeds, but it decrements the first record (2
    becomes 1) and leaves the fifth at 5, not at 4: the rule does not
    hold of every record of the slice. *)
Lemma checkout_every_record_fails :
  let dup := Book "1" "Golang pointers" "Mr. Golang" 5 in
  let bs := snd (createBook (with_book dup) books) in
  bs !! 4%nat = Some dup /\
  status <$> fst (checkoutBook (with_id "1") bs) = Some StatusOK /\
  Quantity <$> snd (checkoutBook (with_id "1") bs) !! 0%nat = Some 1 /\
  Quantity <$> snd (checkoutBook (with_id "1") bs) !! 4%nat = Some 5 /\
  ~ checkout_every_record.
Proof.
  repeat split; try reflexivity.
  intros Hall.
  specialize (Hall (books ++ [Book "1" "Golang pointers" "Mr. Golang" 5])
                   4%nat (Book "1" "Golang pointers" "Mr. Golang" 5)
                   eq_refl).
  assert (GoInt.in_range 5) as Hr by (vm_compute; split; discriminate).
  specialize (Hall Hr). vm_compute in Hall.
  destruct Hall as [_ [=]].
Qed.

(** C1, amended. Let the request carry [id] and let [b], with a quantity
    [q] in the range of [int], be the first record of the slice with that
    identifier (every record is, where identifiers are unique). If
    [q > 0] the checkout answers 200 with the success envelope around the
    updated record, and the slice differs only at that record, whose
    quantity is [q - 1]. If [q <= 0] it answers 400 with the
    not-available message and the slice is unchanged. *)
Theorem checkoutBook_first_match
    (c : Context) (bs : list book) (id : string) (i : nat) (b : book) :
  GetQuery c "id" = Some id ->
  first_match id bs i b ->
  GoInt.in_range (Quantity b) ->
  (0 < Quantity b ->
   checkoutBook c bs =
     (Some (IndentedJSON StatusOK
              (H [("message", JString "success");
                  ("data", JBook (set_Quantity (Quantity b - 1) b))])),
      <[i := set_Quantity (Quantity b - 1) b]> bs)) /\
  (Quantity b <= 0 ->
   checkoutBook c bs =
     (Some (IndentedJSON StatusBadRequest
              (H [("message",
                   JString "book is not available at the moment, check in again later")])),
      bs)).
Proof.
  intros Hq Hfm Hr.
  rewrite (checkoutBook_resolved c bs id Hq i b Hfm).
  split; intros Hsign.
  - rewrite decide_False by lia. simpl.
    by rewrite (GoInt_sub_1 _ Hr Hsign).
  - by rewrite decide_True.
Qed.

Lemma checkoutBook_first_match_witness :
  checkoutBook (with_id "1") books =
    (Some (IndentedJSON StatusOK
             (H [("message", JString "success");
                 ("data", JBook (Book "1" "Golang pointers" "Mr. Golang" 1))])),
     <[0%nat := Book "1" "Golang pointers" "Mr. Golang" 1]> books) /\
  checkoutBook (with_id "7") [Book "7" "Go maps" "Mr. Map" 0] =
    (Some (IndentedJSON StatusBadRequest
             (H [("message",
                  JString "book is not available at the moment, check in again later")])),
     [Book "7" "Go maps" "Mr. Map" 0]).
Proof.
  split.
  - apply (checkoutBook_first_match (with_id "1") books "1" 0
             (Book "1" "Golang pointers" "Mr. Golang" 2)).
    + reflexivity.
    + split; [reflexivity|split; [reflexivity|]]. intros j b' Hj. lia.
    + vm_compute. split; discriminate.
    + reflexivity.
  - apply (checkoutBook_first_match (with_id "7") [Book "7" "Go maps" "Mr. Map" 0] "7" 0
             (Book "7" "Go maps" "Mr. Map" 0)).
    + reflexivity.
    + split; [reflexivity|split; [reflexivity|]]. intros j b' Hj. lia.
    + vm_compute. split; discriminate.
    + simpl. lia.
Defined.

(** ** Return *)

(** C2, as worded, at a concrete slice. A create may bind the largest
    quantity an [int] holds. Returning that book answers 200, but the
    quantity wraps to the smallest [int] instead of growing by one:
    quantities are bounded above by [GoInt.MaxInt]. *)
Lemma return_every_record_fails :
  let top := Book "5" "Go integers" "Mr. Overflow" GoInt.MaxInt in
  let bs := snd (createBook (with_book top) books) in
  bs !! 4%nat = Some top /\
  status <$> fst (returnBook (with_id "5") bs) = Some StatusOK /\
  Quantity <$> snd (returnBook (with_id "5") bs) !! 4%nat = Some GoInt.MinInt /\
  ~ return_every_record.
Proof.
  repeat split; try reflexivity.
  intros Hall.
  specialize (Hall (books ++ [Book "5" "Go integers" "Mr. Overflow" GoInt.MaxInt])
                   4%nat (Book "5" "Go integers" "Mr. Overflow" GoInt.MaxInt)
                   eq_refl).
  assert (GoInt.in_range GoInt.MaxInt) as Hr by (vm_compute; split; discriminate).
  specialize (Hall Hr). vm_compute in Hall.
  destruct Hall as [_ [=]].
Qed.

(** C2, amended. Let the request carry [id] and let [b] be the first
    record of the slice with that identifier (every record is, where
    identifiers are unique), with a quantity [q] below the largest [int];
    [q] may be zero or negative. The return answers 200 with the updated
    record, and the slice differs only at that record, whose quantity is
    [q + 1]. Quantities never exceed [GoInt.MaxInt]. *)
Theorem returnBook_first_match
    (c : Context) (bs : list book) (id : string) (i : nat) (b : book) :
  GetQuery c "id" = Some id ->
  first_match id bs i b ->
  GoInt.MinInt <= Quantity b < GoInt.MaxInt ->
  returnBook c bs =
    (Some (IndentedJSON StatusOK (JBook (set_Quantity (Quantity b + 1) b))),
     <[i := set_Quantity (Quantity b + 1) b]> bs) /\
  GoInt.in_range (Quantity b + 1).
Proof.
  intros Hq Hfm Hr.
  rewrite (returnBook_resolved c bs id Hq i b Hfm). simpl.
  rewrite (GoInt_add_1 _ Hr). split; [done|].
  unfold GoInt.in_range. lia.
Qed.

Lemma returnBook_first_match_witness :
  returnBook (with_id "1") books =
    (Some (IndentedJSON StatusOK (JBook (Book "1" "Golang pointers" "Mr. Golang" 3))),
     <[0%nat := Book "1" "Golang pointers" "Mr. Golang" 3]> books) /\
  returnBook (with_id "7") [Book "7" "Go maps" "Mr. Map" (-3)] =
    (Some (IndentedJSON StatusOK (JBook (Book "7" "Go maps" "Mr. Map" (-2)))),
     [Book "7" "Go maps" "Mr. Map" (-2)]).
Proof.
  split.
  - apply (returnBook_first_match (with_id "1") books "1" 0
             (Book "1" "Golang pointers" "Mr. Golang" 2)).
    + reflexivity.
    + split; [reflexivity|split; [reflexivity|]]. intros j b' Hj. lia.
    + vm_compute. split; [discriminate|reflexivity].
  - apply (returnBook_first_match (with_id "7") [Book "7" "Go maps" "Mr. Map" (-3)] "7" 0
             (Book "7" "Go maps" "Mr. Map" (-3))).
    + reflexivity.
    + split; [reflexivity|split; [reflexivity|]]. intros j b' Hj. lia.
    + vm_compute. split; [discriminate|reflexivity].
Defined.

(** ** Requests that do not resolve *)

(** C3. Without the query parameter [id], [checkoutBook] and
    [returnBook] both answer 400 with a message object and return the
    slice they were given. *)
Theorem missing_id_bad_request (c : Context) (bs : list book) :
  GetQuery c "id" = None ->
  (exists r : Response,
      checkoutBook c bs = (Some r, bs) /\
      status r = StatusBadRequest /\ is_Some (message r)) /\
  (exists r : Response,
      returnBook c bs = (Some r, bs) /\
      status r = StatusBadRequest /\ is_Some (message r)).
Proof.
  intros Hq. unfold checkoutBook, returnBook. rewrite Hq.
  split; eexists; (split; [reflexivity|]); split; [reflexivity|by eexists|reflexivity|by eexists].
Qed.

Lemma missing_id_bad_request_witness :
  (exists r : Response,
      checkoutBook (mkContext [] [("isbn", "1")] None) books = (Some r, books) /\
      status r = StatusBadRequest /\ is_Some (message r)) /\
  (exists r : Response,
      returnBook (mkContext [] [("isbn", "1")] None) books = (Some r, books) /\
      status r = StatusBadRequest /\ is_Some (message r)).
Proof.
  apply (missing_id_bad_request (mkContext [] [("isbn", "1")] None) books).
  reflexivity.
Defined.

(** C4. With an [id] that no record of the slice carries,
    [checkoutBook] and [returnBook] both answer 404 with the message
    "book not found" and return the slice they were given. *)
Theorem unknown_id_not_found (c : Context) (bs : list book) (id : string) :
  GetQuery c "id" = Some id ->
  absent id bs ->
  checkoutBook c bs =
    (Some (IndentedJSON StatusNotFound (H [("message", JString "book not found")])), bs) /\
  returnBook c bs =
    (Some (IndentedJSON StatusNotFound (H [("message", JString "book not found")])), bs).
Proof.
  intros Hq Habs. unfold checkoutBook, returnBook.
  by rewrite Hq, (getBookById_not_found id bs Habs).
Qed.

Lemma unknown_id_not_found_witness :
  checkoutBook (with_id "999") books =
    (Some (IndentedJSON StatusNotFound (H [("message", JString "book not found")])), books) /\
  returnBook (with_id "999") books =
    (Some (IndentedJSON StatusNotFound (H [("message", JString "book not found")])), books).
Proof.
  apply (unknown_id_not_found (with_id "999") books "999").
  - reflexivity.
  - intros b Hb. unfold books in Hb.
    repeat (apply elem_of_cons in Hb as [->|Hb]; [discriminate|]).
    by apply not_elem_of_nil in Hb.
Defined.

(** ** Lookup by identifier *)

(** C5. [bookById] reads [id] from the path. If some record of the
    slice carries [id], [getBookById] returns the pointer to the first
    such record in slice order and the handler answers 200 with that
    record; if none does, the handler answers 404 with the message
    "Book not found". The slice is the same afterwards. *)
Theorem bookById_first_or_not_found (c : Context) (bs : list book) (id : string) :
  Param c "id" = id ->
  ((exists b : book, b ∈ bs /\ ID b = id) ->
   exists (i : nat) (b : book),
     first_match id bs i b /\
     getBookById id bs = inl i /\
     bookById c bs = (Some (IndentedJSON StatusOK (JBook b)), bs)) /\
  (absent id bs ->
   getBookById id bs = inr "book not found" /\
   bookById c bs =
     (Some (IndentedJSON StatusNotFound (H [("message", JString "Book not found")])), bs)).
Proof.
  intros Hid. unfold bookById. rewrite Hid. split.
  - intros Hex. destruct (first_match_exists id bs Hex) as (i & b & Hfm).
    exists i, b. rewrite (getBookById_found id bs i b Hfm).
    split; [done|]. split; [done|].
    destruct Hfm as (-> & _). done.
  - intros Habs. by rewrite (getBookById_not_found id bs Habs).
Qed.

Lemma bookById_first_or_not_found_witness :
  (exists (i : nat) (b : book),
     first_match "3" (books ++ [Book "3" "Go slices" "Mr. Slice" 7]) i b /\
     getBookById "3" (books ++ [Book "3" "Go slices" "Mr. Slice" 7]) = inl i /\
     bookById (mkContext [("id", "3")] [] None)
              (books ++ [Book "3" "Go slices" "Mr. Slice" 7]) =
       (Some (IndentedJSON StatusOK (JBook b)),
        books ++ [Book "3" "Go slices" "Mr. Slice" 7])) /\
  (getBookById "999" books = inr "book not found" /\
   bookById (mkContext [("id", "999")] [] None) books =
     (Some (IndentedJSON StatusNotFound (H [("message", JString "Book not found")])), books)).
Proof.
  split.
  - apply (bookById_first_or_not_found (mkContext [("id", "3")] [] None)
             (books ++ [Book "3" "Go slices" "Mr. Slice" 7]) "3" eq_refl).
    exists (Book "3" "Go slices" "Mr. Slice" 7). split; [|reflexivity].
    apply elem_of_app. right. apply list_elem_of_singleton. reflexivity.
  - apply (bookById_first_or_not_found (mkContext [("id", "999")] [] None)
             books "999" eq_refl).
    intros b Hb. unfold books in Hb.
    repeat (apply elem_of_cons in Hb as [->|Hb]; [discriminate|]).
    by apply not_elem_of_nil in Hb.
Defined.

(** ** Create and list *)

(** One successful create appends the bound book, whatever it is. *)
Lemma createBook_bound (c : Context) (bs : list book) (b : book) :
  BindJSON c = Some b ->
  createBook c bs = (Some (IndentedJSON StatusCreated (JBook b)), bs ++ [b]).
Proof. intros Hb. unfold createBook. by rewrite Hb. Qed.

Lemma serve_creates (cs : list Context) (news : list book) (bs : list book) :
  Forall2 (fun c b => BindJSON c = Some b) cs news ->
  serve bs ((fun c => (createBook, c)) <$> cs) = bs ++ news.
Proof.
  intros Hall. revert bs.
  induction Hall as [|c b cs news Hb _ IH]; intros bs; simpl.
  - by rewrite app_nil_r.
  - unfold serve in IH. rewrite (createBook_bound c bs b Hb). simpl.
    rewrite IH. by rewrite <- app_assoc.
Qed.

(** C6. Starting from the seed slice, after any finite run of creates
    whose bodies bind to the books [news], the slice is the four seed
    records followed by [news] in call order, and that is what a list
    request answers with. A create appends the book it binds as it is,
    answering 201 with it: also when its identifier is already in the
    slice, and whatever its fields hold. *)
Theorem creates_then_list (cs : list Context) (news : list book) (c : Context) :
  Forall2 (fun c b => BindJSON c = Some b) cs news ->
  let bs := serve books ((fun c => (createBook, c)) <$> cs) in
  bs = books ++ news /\
  getBooks c bs = (Some (IndentedJSON StatusOK (JBooks (books ++ news))), books ++ news) /\
  (forall (c' : Context) (b : book) (bs' : list book),
      BindJSON c' = Some b ->
      createBook c' bs' = (Some (IndentedJSON StatusCreated (JBook b)), bs' ++ [b])).
Proof.
  intros Hall bs. subst bs. rewrite (serve_creates cs news books Hall).
  split; [done|]. split; [done|].
  intros c' b bs'. apply createBook_bound.
Qed.

Lemma creates_then_list_witness :
  let dup := Book "1" "" "" (-4) in
  let new := Book "5" "Go channels" "Mr. Channel" 3 in
  let bs := serve books [(createBook, with_book dup); (createBook, with_book new)] in
  bs = books ++ [dup; new] /\
  getBooks (mkContext [] [] None) bs =
    (Some (IndentedJSON StatusOK (JBooks (books ++ [dup; new]))), books ++ [dup; new]) /\
  (forall (c' : Context) (b : book) (bs' : list book),
      BindJSON c' = Some b ->
      createBook c' bs' = (Some (IndentedJSON StatusCreated (JBook b)), bs' ++ [b])).
Proof.
  intros dup new.
  apply (creates_then_list [with_book dup; with_book new] [dup; new] (mkContext [] [] None)).
  repeat constructor.
Defined.

(** C8, as worded, at a concrete request. A create whose body does
    not bind, served on the seed slice, is not silent: [BindJSON] has
    aborted the request with status 400. The response has no body and
    the slice is the seed slice. *)
Lemma create_bind_error_not_silent :
  BindJSON (mkContext [] [] None) = None /\
  status <$> fst (createBook (mkContext [] [] None) books) = Some StatusBadRequest /\
  body <$> fst (createBook (mkContext [] [] None) books) = Some NoBody /\
  snd (createBook (mkContext [] [] None) books) = books /\
  ~ create_bind_error_silent.
Proof.
  repeat split.
  intros Hsilent.
  specialize (Hsilent (mkContext [] [] None) books eq_refl).
  discriminate Hsilent.
Qed.

(** C8, amended. When the body does not bind to a book, [createBook]
    returns at once without a write of its own: nothing is appended, the
    slice is the one it was given, and the response has no body and no
    message. The response does carry a status: the 400 that [BindJSON]
    aborts the request with. A list request served next answers with the
    same books as before. *)
Theorem createBook_bind_error (c c' : Context) (bs : list book) :
  BindJSON c = None ->
  exists r : Response,
    createBook c bs = (Some r, bs) /\
    status r = StatusBadRequest /\
    body r = NoBody /\
    message r = None /\
    getBooks c' (snd (createBook c bs)) =
      (Some (IndentedJSON StatusOK (JBooks bs)), bs).
Proof.
  intros Hb. unfold createBook. rewrite Hb.
  exists (AbortWithStatus StatusBadRequest). by repeat split.
Qed.

Lemma createBook_bind_error_witness :
  exists r : Response,
    createBook (mkContext [] [] None) books = (Some r, books) /\
    status r = StatusBadRequest /\
    body r = NoBody /\
    message r = None /\
    getBooks (mkContext [] [] None) (snd (createBook (mkContext [] [] None) books)) =
      (Some (IndentedJSON StatusOK (JBooks books)), books).
Proof.
  apply (createBook_bind_error (mkContext [] [] None) (mkContext [] [] None) books).
  reflexivity.
Defined.

(** ** The message for a missing identifier *)

(** C7. Without the query parameter [id], [checkoutBook] answers 400,
    but its message ends in a space after the closing quote of 'id';
    it is not the message "missing query parameter 'id'", which
    [returnBook] sends on the same condition. *)
Theorem checkoutBook_missing_id_message (c : Context) (bs : list book) :
  GetQuery c "id" = None ->
  checkoutBook c bs =
    (Some (IndentedJSON StatusBadRequest
             (H [("message", JString "missing query parameter 'id' ")])), bs) /\
  fst (checkoutBook c bs) ≫= message <> Some "missing query parameter 'id'" /\
  fst (returnBook c bs) ≫= message = Some "missing query parameter 'id'".
Proof.
  intros Hq. unfold checkoutBook, returnBook. rewrite Hq.
  split; [reflexivity|]. split; [discriminate|reflexivity].
Qed.

Lemma checkoutBook_missing_id_message_witness :
  checkoutBook (mkContext [] [] None) books =
    (Some (IndentedJSON StatusBadRequest
             (H [("message", JString "missing query parameter 'id' ")])), books) /\
  fst (checkoutBook (mkContext [] [] None) books) ≫= message
    <> Some "missing query parameter 'id'" /\
  fst (returnBook (mkContext [] [] None) books) ≫= message
    = Some "missing query parameter 'id'".
Proof.
  apply (checkoutBook_missing_id_message (mkContext [] [] None) books).
  reflexivity.
Defined.

(** ** Six checkouts of book "1" *)

(** C9. The seed slice holds the four books "1" to "4" with quantities
    2, 20, 30 and 40. After five checkouts of "1" the quantity of that
    book is 0, and the sixth checkout answers 400 with the message "book
    is not available at the moment, check in again later", leaving the
    slice as it found it. *)
Theorem sixth_checkout_refused :
  (fun b => (ID b, Quantity b)) <$> books = [("1", 2); ("2", 20); ("3", 30); ("4", 40)] /\
  let bs := serve books (replicate 5 (checkoutBook, with_id "1")) in
  Quantity <$> bs !! 0%nat = Some 0 /\
  checkoutBook (with_id "1") bs =
    (Some (IndentedJSON StatusBadRequest
             (H [("message",
                  JString "book is not available at the moment, check in again later")])),
     bs).
Proof. vm_compute. repeat split. Qed.

(** ** What a successful checkout or return touches *)

Lemma quantity_only_insert (bs : list book) (i : nat) (b : book) (q : Z) :
  bs !! i = Some b -> quantity_only i bs (<[i := set_Quantity q b]> bs).
Proof.
  intros Hi. split; [apply length_insert|]. split.
  - intros j Hj. by apply list_lookup_insert_ne.
  - exists b, (set_Quantity q b). split; [done|]. split; [|done].
    apply list_lookup_insert_eq. by apply lookup_lt_Some with b.
Qed.

Lemma checkoutBook_OK_inv (c : Context) (bs bs' : list book) (r : Response) :
  checkoutBook c bs = (Some r, bs') -> status r = StatusOK ->
  exists (id : string) (i : nat) (b : book),
    GetQuery c "id" = Some id /\ first_match id bs i b /\
    bs' = <[i := set_Quantity (GoInt.sub (Quantity b) 1) b]> bs.
Proof.
  unfold checkoutBook.
  destruct (GetQuery c "id") as [id|] eqn:Hq; [|by intros [= <- <-]].
  destruct (getBookById id bs) as [i|msg] eqn:Hget; [|by intros [= <- <-]].
  destruct (getBookById_inl id bs i Hget) as (b & Hfm).
  pose proof Hfm as (Hi & _). rewrite Hi.
  destruct (decide (Quantity b <= 0)); [by intros [= <- <-]|].
  intros [= <- <-] _. by exists id, i, b.
Qed.

Lemma returnBook_OK_inv (c : Context) (bs bs' : list book) (r : Response) :
  returnBook c bs = (Some r, bs') -> status r = StatusOK ->
  exists (id : string) (i : nat) (b : book),
    GetQuery c "id" = Some id /\ first_match id bs i b /\
    bs' = <[i := set_Quantity (GoInt.add (Quantity b) 1) b]> bs.
Proof.
  unfold returnBook.
  destruct (GetQuery c "id") as [id|] eqn:Hq; [|by intros [= <- <-]].
  destruct (getBookById id bs) as [i|msg] eqn:Hget; [|by intros [= <- <-]].
  destruct (getBookById_inl id bs i Hget) as (b & Hfm).
  pose proof Hfm as (Hi & _). rewrite Hi.
  intros [= <- <-] _. by exists id, i, b.
Qed.

(** C10. Whenever [checkoutBook] or [returnBook] answers 200, the
    request carried an [id], and the slice afterwards differs from the
    slice before at most in the quantity of the first record with that
    [id]: that record keeps its identifier, title and author, every
    other index holds the record it held, later records with the same
    [id] included, and the length, hence the order, is the same. *)
Theorem success_touches_quantity_only
    (c : Context) (bs bs' : list book) (r : Response) :
  status r = StatusOK ->
  checkoutBook c bs = (Some r, bs') \/ returnBook c bs = (Some r, bs') ->
  exists (id : string) (i : nat) (b : book),
    GetQuery c "id" = Some id /\
    first_match id bs i b /\
    quantity_only i bs bs'.
Proof.
  intros Hok [Hco|Hre].
  - destruct (checkoutBook_OK_inv c bs bs' r Hco Hok) as (id & i & b & Hq & Hfm & ->).
    exists id, i, b. split; [done|]. split; [done|].
    apply quantity_only_insert, Hfm.
  - destruct (returnBook_OK_inv c bs bs' r Hre Hok) as (id & i & b & Hq & Hfm & ->).
    exists id, i, b. split; [done|]. split; [done|].
    apply quantity_only_insert, Hfm.
Qed.

Lemma success_touches_quantity_only_witness :
  let dup := Book "1" "Golang pointers" "Mr. Golang" 5 in
  let bs := books ++ [dup] in
  (exists (id : string) (i : nat) (b : book),
     GetQuery (with_id "1") "id" = Some id /\
     first_match id bs i b /\
     quantity_only i bs
       [ Book "1" "Golang pointers" "Mr. Golang" 1;
         Book "2" "Goroutines" "Mr. Goroutine" 20;
         Book "3" "Golang routers" "Mr. Router" 30;
         Book "4" "Golang concurrency" "Mr. Currency" 40;
         dup ]) /\
  (exists (id : string) (i : nat) (b : book),
     GetQuery (with_id "1") "id" = Some id /\
     first_match id bs i b /\
     quantity_only i bs
       [ Book "1" "Golang pointers" "Mr. Golang" 3;
         Book "2" "Goroutines" "Mr. Goroutine" 20;
         Book "3" "Golang routers" "Mr. Router" 30;
         Book "4" "Golang concurrency" "Mr. Currency" 40;
         dup ]).
Proof.
  intros dup bs. split.
  - apply (success_touches_quantity_only (with_id "1") bs _
             (IndentedJSON StatusOK
                (H [("message", JString "success");
                    ("data", JBook (Book "1" "Golang pointers" "Mr. Golang" 1))]))).
    + reflexivity.
    + left. reflexivity.
  - apply (success_touches_quantity_only (with_id "1") bs _
             (IndentedJSON StatusOK (JBook (Book "1" "Golang pointers" "Mr. Golang" 3)))).
    + reflexivity.
    + right. reflexivity.
Defined.

(** ** The effect of the handlers on the slice *)

Lemma set_Quantity_same (b : book) : set_Quantity (Quantity b) b = b.
Proof. by destruct b. Qed.

(** The scan reads identifiers only. *)
Lemma getBookById_from_IDs (bs bs' : list book) (i : nat) (id : string) :
  ID <$> bs = ID <$> bs' ->
  getBookById_from i bs id = getBookById_from i bs' id.
Proof.
  revert bs' i. induction bs as [|a rest IH]; intros [|a' rest'] i; simpl; try done.
  intros [= Ha Hrest]. rewrite Ha. by rewrite (IH rest' (S i) Hrest).
Qed.

Lemma getBookById_IDs (bs bs' : list book) (id : string) :
  ID <$> bs = ID <$> bs' -> getBookById id bs = getBookById id bs'.
Proof. intros HIDs. unfold getBookById. by rewrite (getBookById_from_IDs bs bs' 0 id HIDs). Qed.

Lemma identity_insert (bs : list book) (i : nat) (b : book) (q : Z) :
  bs !! i = Some b ->
  identity <$> <[i := set_Quantity q b]> bs = identity <$> bs.
Proof.
  intros Hi. rewrite list_fmap_insert.
  apply list_insert_id. by rewrite list_lookup_fmap, Hi.
Qed.

Lemma identity_IDs (bs bs' : list book) :
  identity <$> bs = identity <$> bs' -> ID <$> bs = ID <$> bs'.
Proof.
  intros Hid.
  assert (forall l : list book, ID <$> l = (fun t => t.1.1) <$> (identity <$> l)) as Hfst.
  { intros l. rewrite <- list_fmap_compose. done. }
  by rewrite !Hfst, Hid.
Qed.

Lemma adjust_identity (f : Z -> Z) (id : string) (bs : list book) :
  identity <$> adjust f id bs = identity <$> bs.
Proof.
  unfold adjust. destruct (getBookById id bs) as [i|]; [|done].
  destruct (bs !! i) as [b|] eqn:Hi; [|done].
  by apply identity_insert.
Qed.

Lemma adjust_first_match (f : Z -> Z) (id : string) (bs : list book)
    (i : nat) (b : book) :
  first_match id bs i b ->
  adjust f id bs = <[i := set_Quantity (f (Quantity b)) b]> bs.
Proof.
  intros Hfm. unfold adjust. rewrite (getBookById_found id bs i b Hfm).
  by destruct Hfm as (-> & _).
Qed.

Lemma adjust_absent (f : Z -> Z) (id : string) (bs : list book) :
  absent id bs -> adjust f id bs = bs.
Proof. intros Habs. unfold adjust. by rewrite (getBookById_not_found id bs Habs). Qed.

Lemma getBookById_adjust (f : Z -> Z) (id id' : string) (bs : list book) :
  getBookById id' (adjust f id bs) = getBookById id' bs.
Proof. apply getBookById_IDs, identity_IDs, adjust_identity. Qed.

(** Two adjustments of one identifier are the adjustment by the
    composition. *)
Lemma adjust_adjust (f g : Z -> Z) (id : string) (bs : list book) :
  adjust g id (adjust f id bs) = adjust (fun q => g (f q)) id bs.
Proof.
  unfold adjust at 1. rewrite getBookById_adjust.
  destruct (getBookById id bs) as [i|msg] eqn:Hget.
  - destruct (getBookById_inl id bs i Hget) as (b & Hfm).
    rewrite !(adjust_first_match _ id bs i b Hfm).
    pose proof Hfm as (Hi & _).
    rewrite list_lookup_insert_eq by (by apply lookup_lt_Some with b).
    by rewrite list_insert_insert_eq.
  - unfold adjust. by rewrite Hget.
Qed.

Lemma adjust_iter (f : Z -> Z) (id : string) (bs : list book) (n : nat) :
  Nat.iter n (adjust f id) bs = adjust (fun q => Nat.iter n f q) id bs.
Proof.
  induction n as [|n IH]; simpl.
  - unfold adjust. destruct (getBookById id bs) as [i|]; [|done].
    destruct (bs !! i) as [b|] eqn:Hi; [|done].
    rewrite set_Quantity_same. by rewrite list_insert_id.
  - by rewrite IH, adjust_adjust.
Qed.

Lemma adjust_unresolved (f : Z -> Z) (id msg : string) (bs : list book) :
  getBookById id bs = inr msg -> adjust f id bs = bs.
Proof. intros Hget. unfold adjust. by rewrite Hget. Qed.

(** Adjustments of different identifiers commute. *)
Lemma adjust_comm (f g : Z -> Z) (id1 id2 : string) (bs : list book) :
  id1 <> id2 ->
  adjust g id2 (adjust f id1 bs) = adjust f id1 (adjust g id2 bs).
Proof.
  intros Hne.
  destruct (getBookById id1 bs) as [i1|m1] eqn:H1.
  - destruct (getBookById id2 bs) as [i2|m2] eqn:H2.
    + destruct (getBookById_inl id1 bs i1 H1) as (b1 & Hfm1).
      destruct (getBookById_inl id2 bs i2 H2) as (b2 & Hfm2).
      pose proof Hfm1 as (Hi1 & Hid1 & _). pose proof Hfm2 as (Hi2 & Hid2 & _).
      assert (i1 <> i2) as Hi by (intros ->; congruence).
      unfold adjust at 1 3. rewrite !getBookById_adjust, H1, H2.
      rewrite (adjust_first_match f id1 bs i1 b1 Hfm1).
      rewrite (adjust_first_match g id2 bs i2 b2 Hfm2).
      rewrite list_lookup_insert_ne by done. rewrite Hi2.
      rewrite list_lookup_insert_ne by done. rewrite Hi1.
      by apply list_insert_insert_ne.
    + rewrite (adjust_unresolved g id2 m2 bs H2).
      apply (adjust_unresolved g id2 m2). by rewrite getBookById_adjust.
  - rewrite (adjust_unresolved f id1 m1 bs H1). symmetry.
    apply (adjust_unresolved f id1 m1). by rewrite getBookById_adjust.
Qed.

(** The slice [checkoutBook] and [returnBook] leave behind. *)
Lemma checkoutBook_adjust (c : Context) (bs : list book) :
  snd (checkoutBook c bs) =
    match GetQuery c "id" with
    | Some id => adjust checkout_step id bs
    | None => bs
    end.
Proof.
  unfold checkoutBook, adjust, checkout_step.
  destruct (GetQuery c "id") as [id|]; [|done].
  destruct (getBookById id bs) as [i|]; [|done].
  destruct (bs !! i) as [b|] eqn:Hi; [|done].
  destruct (decide (Quantity b <= 0)); [|done].
  simpl. rewrite set_Quantity_same. by rewrite list_insert_id.
Qed.

Lemma returnBook_adjust (c : Context) (bs : list book) :
  snd (returnBook c bs) =
    match GetQuery c "id" with
    | Some id => adjust return_step id bs
    | None => bs
    end.
Proof.
  unfold returnBook, adjust, return_step.
  destruct (GetQuery c "id") as [id|]; [|done].
  destruct (getBookById id bs) as [i|]; [|done].
  by destruct (bs !! i) as [b|] eqn:Hi.
Qed.

(** ** Every registered handler *)

(** Case analysis on the route a handler is registered under. *)
Ltac route_cases Hin :=
  unfold routes in Hin;
  repeat (apply elem_of_cons in Hin as [Hin|Hin]; [injection Hin as -> -> ->|]);
  [..|by apply elem_of_nil in Hin].

Lemma getBookById_deref (id : string) (bs : list book) (i : nat) :
  getBookById id bs = inl i -> is_Some (bs !! i).
Proof.
  intros Hget. destruct (getBookById_inl id bs i Hget) as (b & Hi & _). by exists b.
Qed.

(** X1. Every handler registered in [main] leaves a response written,
    whatever the request and the slice: the pointer dereferences of
    [bookById], [checkoutBook] and [returnBook] never miss the slice.
    The status is one of 200, 201, 400 and 404, and the response is
    without a body in one case only: the handler is that of POST /books
    and the body does not bind. *)
Theorem registered_handler_responds
    (m p : string) (h : Handler) (c : Context) (bs : list book) :
  (m, p, h) ∈ routes ->
  exists r : Response,
    fst (h c bs) = Some r /\
    status r ∈ [StatusOK; StatusCreated; StatusBadRequest; StatusNotFound] /\
    (body r = NoBody <-> (m, p) = ("POST", "/books") /\ BindJSON c = None).
Proof.
  intros Hin. route_cases Hin.
  - eexists. split; [reflexivity|]. split; [by left|].
    split; [discriminate|]. by intros [[=] _].
  - unfold createBook. destruct (BindJSON c) as [b|]; simpl.
    + eexists. split; [reflexivity|]. split; [right; by left|].
      split; [discriminate|]. by intros [_ [=]].
    + eexists. split; [reflexivity|]. split; [do 2 right; by left|]. done.
  - unfold bookById. destruct (getBookById _ bs) as [i|] eqn:Hget.
    + destruct (getBookById_deref _ bs i Hget) as (b & ->).
      eexists. split; [reflexivity|]. split; [by left|].
      split; [discriminate|]. by intros [[=] _].
    + eexists. split; [reflexivity|]. split; [do 3 right; by left|].
      split; [discriminate|]. by intros [[=] _].
  - unfold checkoutBook. destruct (GetQuery c "id") as [id|].
    + destruct (getBookById id bs) as [i|] eqn:Hget.
      * destruct (getBookById_deref id bs i Hget) as (b & ->).
        destruct (decide (Quantity b <= 0)).
        -- eexists. split; [reflexivity|]. split; [do 2 right; by left|].
           split; [discriminate|]. by intros [[=] _].
        -- eexists. split; [reflexivity|]. split; [by left|].
           split; [discriminate|]. by intros [[=] _].
      * eexists. split; [reflexivity|]. split; [do 3 right; by left|].
        split; [discriminate|]. by intros [[=] _].
    + eexists. split; [reflexivity|]. split; [do 2 right; by left|].
      split; [discriminate|]. by intros [[=] _].
  - unfold returnBook. destruct (GetQuery c "id") as [id|].
    + destruct (getBookById id bs) as [i|] eqn:Hget.
      * destruct (getBookById_deref id bs i Hget) as (b & ->).
        eexists. split; [reflexivity|]. split; [by left|].
        split; [discriminate|]. by intros [[=] _].
      * eexists. split; [reflexivity|]. split; [do 3 right; by left|].
        split; [discriminate|]. by intros [[=] _].
    + eexists. split; [reflexivity|]. split; [do 2 right; by left|].
      split; [discriminate|]. by intros [[=] _].
Qed.

Lemma registered_handler_responds_witness :
  exists r : Response,
    fst (createBook (mkContext [] [] None) books) = Some r /\
    status r ∈ [StatusOK; StatusCreated; StatusBadRequest; StatusNotFound] /\
    (body r = NoBody <->
     ("POST", "/books") = ("POST", "/books") /\ BindJSON (mkContext [] [] None) = None).
Proof.
  apply (registered_handler_responds "POST" "/books" createBook (mkContext [] [] None) books).
  unfold routes. apply list_elem_of_further, list_elem_of_here.
Defined.

(** X2. A registered handler that changes the slice answers 200 or 201:
    whenever it writes another status, or nothing, the slice is the one
    it was given. *)
Theorem other_status_leaves_slice
    (m p : string) (h : Handler) (c : Context) (bs : list book) :
  (m, p, h) ∈ routes ->
  (forall r : Response,
      fst (h c bs) = Some r -> status r <> StatusOK /\ status r <> StatusCreated) ->
  snd (h c bs) = bs.
Proof.
  intros Hin Hst. route_cases Hin.
  - done.
  - revert Hst. unfold createBook. destruct (BindJSON c) as [b|]; simpl; [|done].
    intros Hst. by destruct (Hst _ eq_refl) as [_ []].
  - unfold bookById. destruct (getBookById _ bs) as [i|]; [|done].
    by destruct (bs !! i).
  - revert Hst. unfold checkoutBook.
    destruct (GetQuery c "id") as [id|]; [|done].
    destruct (getBookById id bs) as [i|]; [|done].
    destruct (bs !! i) as [b|]; [|done].
    destruct (decide (Quantity b <= 0)); [done|]. simpl.
    intros Hst. by destruct (Hst _ eq_refl) as [[] _].
  - revert Hst. unfold returnBook.
    destruct (GetQuery c "id") as [id|]; [|done].
    destruct (getBookById id bs) as [i|]; [|done].
    destruct (bs !! i) as [b|]; [|done]. simpl.
    intros Hst. by destruct (Hst _ eq_refl) as [[] _].
Qed.

Lemma other_status_leaves_slice_witness :
  snd (checkoutBook (with_id "7") [Book "7" "Go maps" "Mr. Map" 0]) =
    [Book "7" "Go maps" "Mr. Map" 0].
Proof.
  apply (other_status_leaves_slice "PATCH" "/checkout" checkoutBook
           (with_id "7") [Book "7" "Go maps" "Mr. Map" 0]).
  - unfold routes. do 3 apply list_elem_of_further. apply list_elem_of_here.
  - intros r Hr. injection Hr as <-. split; discriminate.
Defined.

(** X3. The handlers registered under GET never change the slice. *)
Theorem GET_leaves_slice
    (p : string) (h : Handler) (c : Context) (bs : list book) :
  ("GET", p, h) ∈ routes -> snd (h c bs) = bs.
Proof.
  intros Hin. remember "GET" as m eqn:Hm.
  route_cases Hin; try discriminate Hm.
  - done.
  - unfold bookById. destruct (getBookById _ bs) as [i|]; [|done].
    by destruct (bs !! i).
Qed.

Lemma GET_leaves_slice_witness :
  snd (bookById (mkContext [("id", "2")] [] None) books) = books.
Proof.
  apply (GET_leaves_slice "/books/:id" bookById (mkContext [("id", "2")] [] None) books).
  unfold routes. do 2 apply list_elem_of_further. apply list_elem_of_here.
Defined.

(** ** Runs of requests *)

(** One request either keeps the identities of the slice or appends the
    book its body binds. *)
Lemma registered_step (h : Handler) (c : Context) (bs : list book) :
  registered h ->
  identity <$> snd (h c bs) = identity <$> bs \/
  exists b : book, BindJSON c = Some b /\ snd (h c bs) = bs ++ [b].
Proof.
  intros (m & p & Hin). route_cases Hin.
  - by left.
  - unfold createBook. destruct (BindJSON c) as [b|]; [right; by exists b|by left].
  - left. unfold bookById. destruct (getBookById _ bs) as [i|]; [|done].
    by destruct (bs !! i).
  - left. rewrite checkoutBook_adjust.
    destruct (GetQuery c "id"); [apply adjust_identity|done].
  - left. rewrite returnBook_adjust.
    destruct (GetQuery c "id"); [apply adjust_identity|done].
Qed.

Lemma serve_cons (bs : list book) (h : Handler) (c : Context)
    (reqs : list (Handler * Context)) :
  serve bs ((h, c) :: reqs) = serve (snd (h c bs)) reqs.
Proof. done. Qed.

(** X4. Through any run of requests to registered handlers, the records
    of the slice keep their place, identifier, title and author, and
    what the run adds behind them are books bound from request bodies, in
    request order: nothing is ever removed, reordered or renamed. *)
Theorem run_keeps_identities (bs : list book) (reqs : list (Handler * Context)) :
  Forall (fun hc => registered hc.1) reqs ->
  exists added : list book,
    identity <$> serve bs reqs = (identity <$> bs) ++ (identity <$> added) /\
    sublist added (omap (fun hc => BindJSON hc.2) reqs).
Proof.
  intros Hreg. revert bs.
  induction Hreg as [|[h c] reqs Hh _ IH]; intros bs.
  - exists []. split; [by rewrite app_nil_r|done].
  - rewrite serve_cons. simpl in Hh.
    destruct (IH (snd (h c bs))) as (added & Hid & Hsub).
    destruct (registered_step h c bs Hh) as [Hsame|(b & Hb & Happ)].
    + exists added. rewrite Hid, Hsame. split; [done|].
      simpl. destruct (BindJSON c); [by apply sublist_cons|done].
    + exists (b :: added). rewrite Hid, Happ. split.
      * rewrite fmap_app. simpl. by rewrite <- app_assoc.
      * simpl. rewrite Hb. by apply sublist_skip.
Qed.

Lemma run_keeps_identities_witness :
  exists added : list book,
    identity <$> serve books
        [ (createBook, with_book (Book "1" "Go maps" "Mr. Map" 0));
          (checkoutBook, with_id "1");
          (returnBook, with_id "9") ]
      = (identity <$> books) ++ (identity <$> added) /\
    sublist added [Book "1" "Go maps" "Mr. Map" 0].
Proof.
  apply (run_keeps_identities books
           [ (createBook, with_book (Book "1" "Go maps" "Mr. Map" 0));
             (checkoutBook, with_id "1");
             (returnBook, with_id "9") ]).
  repeat apply Forall_cons_2; [| | |apply Forall_nil_2].
  - exists "POST", "/books". unfold routes.
    apply list_elem_of_further, list_elem_of_here.
  - exists "PATCH", "/checkout". unfold routes.
    do 3 apply list_elem_of_further. apply list_elem_of_here.
  - exists "PATCH", "/return". unfold routes.
    do 4 apply list_elem_of_further. apply list_elem_of_here.
Defined.

Lemma getBookById_from_app (bs more : list book) (i k : nat) (id : string) :
  getBookById_from i bs id = Some k ->
  getBookById_from i (bs ++ more) id = Some k.
Proof.
  revert i. induction bs as [|a rest IH]; intros i; simpl; [discriminate|].
  destruct (decide (ID a = id)); [done|apply IH].
Qed.

Lemma getBookById_app (bs more : list book) (i : nat) (id : string) :
  getBookById id bs = inl i -> getBookById id (bs ++ more) = inl i.
Proof.
  unfold getBookById.
  destruct (getBookById_from 0 bs id) as [k|] eqn:Hk; [|discriminate].
  intros [= <-]. by rewrite (getBookById_from_app bs more 0 k id Hk).
Qed.

Lemma step_keeps_resolution
    (h : Handler) (c : Context) (bs : list book) (id : string) (i : nat) :
  registered h ->
  getBookById id bs = inl i ->
  getBookById id (snd (h c bs)) = inl i.
Proof.
  intros Hh Hget.
  destruct (registered_step h c bs Hh) as [Hsame|(b & _ & ->)].
  - by rewrite (getBookById_IDs _ bs id (identity_IDs _ _ Hsame)).
  - by apply getBookById_app.
Qed.

(** X5. Once [getBookById] resolves an identifier to an index, it
    resolves it to the same index after any run of requests to
    registered handlers: a record, once reachable by its identifier, is
    never shadowed or displaced. *)
Theorem run_keeps_resolution
    (bs : list book) (reqs : list (Handler * Context)) (id : string) (i : nat) :
  Forall (fun hc => registered hc.1) reqs ->
  getBookById id bs = inl i ->
  getBookById id (serve bs reqs) = inl i.
Proof.
  intros Hreg. revert bs.
  induction Hreg as [|[h c] reqs Hh _ IH]; intros bs Hget; [done|].
  rewrite serve_cons. apply IH.
  by apply step_keeps_resolution.
Qed.

Lemma run_keeps_resolution_witness :
  getBookById "1"
    (serve books
       [ (createBook, with_book (Book "1" "Go maps" "Mr. Map" 0));
         (checkoutBook, with_id "1") ]) = inl 0%nat.
Proof.
  apply (run_keeps_resolution books
           [ (createBook, with_book (Book "1" "Go maps" "Mr. Map" 0));
             (checkoutBook, with_id "1") ] "1" 0).
  - repeat apply Forall_cons_2; [| |apply Forall_nil_2].
    + exists "POST", "/books". unfold routes.
      apply list_elem_of_further, list_elem_of_here.
    + exists "PATCH", "/checkout". unfold routes.
      do 3 apply list_elem_of_further. apply list_elem_of_here.
  - reflexivity.
Defined.

(** ** Checkouts and returns composed *)

Lemma GoInt_bounds : GoInt.MinInt < 0 < GoInt.MaxInt.
Proof. split; reflexivity. Qed.

Lemma return_checkout_step (q : Z) :
  GoInt.in_range q -> 0 < q -> return_step (checkout_step q) = q.
Proof.
  intros Hr Hpos. unfold checkout_step, return_step.
  rewrite decide_False by lia. rewrite (GoInt_sub_1 q Hr Hpos).
  pose proof GoInt_bounds. unfold GoInt.in_range in Hr.
  rewrite GoInt_add_1; lia.
Qed.

Lemma checkout_return_step (q : Z) :
  0 <= q < GoInt.MaxInt -> checkout_step (return_step q) = q.
Proof.
  intros Hq. unfold checkout_step, return_step.
  pose proof GoInt_bounds.
  rewrite GoInt_add_1 by lia. rewrite decide_False by lia.
  rewrite GoInt_sub_1; [lia| |lia]. unfold GoInt.in_range. lia.
Qed.

Lemma adjust_restores (f : Z -> Z) (id : string) (bs : list book)
    (i : nat) (b : book) :
  first_match id bs i b -> f (Quantity b) = Quantity b -> adjust f id bs = bs.
Proof.
  intros Hfm Hf. rewrite (adjust_first_match f id bs i b Hfm), Hf.
  rewrite set_Quantity_same. apply list_insert_id, Hfm.
Qed.

(** X6. A checkout that succeeds, followed by a return of the same
    identifier, leaves the slice exactly as it was before the two. *)
Theorem checkout_then_return_restores
    (c c' : Context) (bs : list book) (id : string) (i : nat) (b : book) :
  GetQuery c "id" = Some id ->
  GetQuery c' "id" = Some id ->
  first_match id bs i b ->
  GoInt.in_range (Quantity b) ->
  0 < Quantity b ->
  snd (returnBook c' (snd (checkoutBook c bs))) = bs.
Proof.
  intros Hq Hq' Hfm Hr Hpos.
  rewrite checkoutBook_adjust, returnBook_adjust, Hq, Hq', adjust_adjust.
  apply (adjust_restores _ id bs i b Hfm).
  by apply return_checkout_step.
Qed.

Lemma checkout_then_return_restores_witness :
  snd (returnBook (with_id "2") (snd (checkoutBook (with_id "2") books))) = books.
Proof.
  apply (checkout_then_return_restores (with_id "2") (with_id "2") books "2" 1
           (Book "2" "Goroutines" "Mr. Goroutine" 20)).
  - reflexivity.
  - reflexivity.
  - split; [reflexivity|split; [reflexivity|]].
    intros [|j] b' Hj; [|lia]. intros [= <-]. discriminate.
  - vm_compute. split; discriminate.
  - reflexivity.
Defined.

(** X7. A return followed by a checkout of the same identifier leaves
    the slice exactly as it was, provided the quantity of the record was
    not negative and was below the largest [int]. *)
Theorem return_then_checkout_restores
    (c c' : Context) (bs : list book) (id : string) (i : nat) (b : book) :
  GetQuery c "id" = Some id ->
  GetQuery c' "id" = Some id ->
  first_match id bs i b ->
  0 <= Quantity b < GoInt.MaxInt ->
  snd (checkoutBook c' (snd (returnBook c bs))) = bs.
Proof.
  intros Hq Hq' Hfm Hr.
  rewrite returnBook_adjust, checkoutBook_adjust, Hq, Hq', adjust_adjust.
  apply (adjust_restores _ id bs i b Hfm).
  by apply checkout_return_step.
Qed.

Lemma return_then_checkout_restores_witness :
  snd (checkoutBook (with_id "7")
         (snd (returnBook (with_id "7") [Book "7" "Go maps" "Mr. Map" 0]))) =
    [Book "7" "Go maps" "Mr. Map" 0].
Proof.
  apply (return_then_checkout_restores (with_id "7") (with_id "7")
           [Book "7" "Go maps" "Mr. Map" 0] "7" 0 (Book "7" "Go maps" "Mr. Map" 0)).
  - reflexivity.
  - reflexivity.
  - split; [reflexivity|split; [reflexivity|]]. intros j b' Hj. lia.
  - vm_compute. split; [discriminate|reflexivity].
Defined.

Lemma adjust_ext (f g : Z -> Z) (id : string) (bs : list book) :
  (forall q : Z, f q = g q) -> adjust f id bs = adjust g id bs.
Proof.
  intros Hfg. unfold adjust. destruct (getBookById id bs) as [i|]; [|done].
  destruct (bs !! i) as [b|]; [|done]. by rewrite Hfg.
Qed.

(** A run of [n] equal requests to a handler that adjusts by [f]
    adjusts by [f] iterated [n] times. *)
Lemma serve_replicate_adjust
    (h : Handler) (c : Context) (f : Z -> Z) (id : string) :
  (forall bs : list book, snd (h c bs) = adjust f id bs) ->
  forall (n : nat) (bs : list book),
    serve bs (replicate n (h, c)) = adjust (fun q => Nat.iter n f q) id bs.
Proof.
  intros Hh n. induction n as [|n IH]; intros bs.
  - apply (adjust_iter f id bs 0).
  - simpl replicate. rewrite serve_cons, IH, Hh, adjust_adjust.
    apply adjust_ext. intros q. symmetry. apply Nat.iter_succ_r.
Qed.

Lemma checkout_step_iter (n : nat) (q : Z) :
  0 <= q <= GoInt.MaxInt ->
  Nat.iter n checkout_step q = Z.max 0 (q - Z.of_nat n).
Proof.
  intros Hq. induction n as [|n IH]; [simpl; lia|].
  simpl Nat.iter. rewrite IH. unfold checkout_step.
  pose proof GoInt_bounds.
  destruct (decide (Z.max 0 (q - Z.of_nat n) <= 0)); [lia|].
  rewrite GoInt_sub_1; [lia| |lia]. unfold GoInt.in_range. lia.
Qed.

Lemma return_step_iter (n : nat) (q : Z) :
  GoInt.MinInt <= q -> q + Z.of_nat n <= GoInt.MaxInt ->
  Nat.iter n return_step q = q + Z.of_nat n.
Proof.
  intros Hlo. induction n as [|n IH]; intros Hhi; [simpl; lia|].
  simpl Nat.iter. rewrite IH by lia. unfold return_step.
  rewrite GoInt_add_1; lia.
Qed.

(** X8. From a quantity [q] that is not negative, [n] checkouts of the
    same identifier in a row leave the quantity [q - n] if the stock
    lasts and 0 if it does not, and touch nothing else. *)
Theorem checkouts_drain_stock
    (c : Context) (bs : list book) (id : string) (i : nat) (b : book) (n : nat) :
  GetQuery c "id" = Some id ->
  first_match id bs i b ->
  0 <= Quantity b <= GoInt.MaxInt ->
  serve bs (replicate n (checkoutBook, c)) =
    <[i := set_Quantity (Z.max 0 (Quantity b - Z.of_nat n)) b]> bs.
Proof.
  intros Hq Hfm Hr.
  rewrite (serve_replicate_adjust checkoutBook c checkout_step id).
  - rewrite (adjust_first_match _ id bs i b Hfm).
    by rewrite (checkout_step_iter n _ Hr).
  - intros bs'. by rewrite checkoutBook_adjust, Hq.
Qed.

Lemma checkouts_drain_stock_witness :
  serve books (replicate 25 (checkoutBook, with_id "2")) =
    <[1%nat := Book "2" "Goroutines" "Mr. Goroutine" 0]> books.
Proof.
  apply (checkouts_drain_stock (with_id "2") books "2" 1
           (Book "2" "Goroutines" "Mr. Goroutine" 20) 25).
  - reflexivity.
  - split; [reflexivity|split; [reflexivity|]].
    intros [|j] b' Hj; [|lia]. intros [= <-]. discriminate.
  - vm_compute. split; discriminate.
Defined.

(** X9. [n] returns of the same identifier in a row add [n] to the
    quantity of the record, as long as the sum stays within [int], and
    touch nothing else. *)
Theorem returns_add_up
    (c : Context) (bs : list book) (id : string) (i : nat) (b : book) (n : nat) :
  GetQuery c "id" = Some id ->
  first_match id bs i b ->
  GoInt.MinInt <= Quantity b ->
  Quantity b + Z.of_nat n <= GoInt.MaxInt ->
  serve bs (replicate n (returnBook, c)) =
    <[i := set_Quantity (Quantity b + Z.of_nat n) b]> bs.
Proof.
  intros Hq Hfm Hlo Hhi.
  rewrite (serve_replicate_adjust returnBook c return_step id).
  - rewrite (adjust_first_match _ id bs i b Hfm).
    by rewrite (return_step_iter n _ Hlo Hhi).
  - intros bs'. by rewrite returnBook_adjust, Hq.
Qed.

Lemma returns_add_up_witness :
  serve books (replicate 3 (returnBook, with_id "1")) =
    <[0%nat := Book "1" "Golang pointers" "Mr. Golang" 5]> books.
Proof.
  apply (returns_add_up (with_id "1") books "1" 0
           (Book "1" "Golang pointers" "Mr. Golang" 2) 3).
  - reflexivity.
  - split; [reflexivity|split; [reflexivity|]]. intros j b' Hj. lia.
  - vm_compute. discriminate.
  - vm_compute. discriminate.
Defined.

(** X10. Checkouts and returns of different identifiers commute: the
    slice after two such requests does not depend on their order. *)
Theorem different_ids_commute
    (h1 h2 : Handler) (c1 c2 : Context) (bs : list book) :
  h1 = checkoutBook \/ h1 = returnBook ->
  h2 = checkoutBook \/ h2 = returnBook ->
  GetQuery c1 "id" <> GetQuery c2 "id" ->
  snd (h2 c2 (snd (h1 c1 bs))) = snd (h1 c1 (snd (h2 c2 bs))).
Proof.
  intros [-> | ->] [-> | ->] Hne;
    rewrite ?checkoutBook_adjust, ?returnBook_adjust;
    destruct (GetQuery c1 "id") as [id1|], (GetQuery c2 "id") as [id2|];
    try done; apply adjust_comm; congruence.
Qed.

Lemma different_ids_commute_witness :
  snd (returnBook (with_id "2") (snd (checkoutBook (with_id "1") books))) =
  snd (checkoutBook (with_id "1") (snd (returnBook (with_id "2") books))).
Proof.
  apply (different_ids_commute checkoutBook returnBook (with_id "1") (with_id "2") books).
  - left. reflexivity.
  - right. reflexivity.
  - discriminate.
Defined.

(** X11. Served one after the other, checkouts never take a quantity
    below zero: if every quantity of the slice is a non-negative [int],
    so is every quantity after a checkout. *)
Theorem checkout_keeps_nonnegative (c : Context) (bs : list book) :
  Forall (fun b => 0 <= Quantity b <= GoInt.MaxInt) bs ->
  Forall (fun b => 0 <= Quantity b <= GoInt.MaxInt) (snd (checkoutBook c bs)).
Proof.
  intros Hall. rewrite checkoutBook_adjust.
  destruct (GetQuery c "id") as [id|]; [|done].
  unfold adjust. destruct (getBookById id bs) as [i|]; [|done].
  destruct (bs !! i) as [b|] eqn:Hi; [|done].
  apply Forall_insert; [done|]. simpl.
  pose proof (Forall_lookup_1 _ _ _ _ Hall Hi) as Hb. simpl in Hb.
  unfold checkout_step. destruct (decide (Quantity b <= 0)); [done|].
  pose proof GoInt_bounds.
  rewrite GoInt_sub_1; [lia| |lia]. unfold GoInt.in_range. lia.
Qed.

Lemma checkout_keeps_nonnegative_witness :
  Forall (fun b => 0 <= Quantity b <= GoInt.MaxInt)
         (snd (checkoutBook (with_id "1") books)).
Proof.
  apply (checkout_keeps_nonnegative (with_id "1") books).
  unfold books. repeat apply Forall_cons_2; [| | | |apply Forall_nil_2];
    vm_compute; split; discriminate.
Defined.

(** ** Creates and lookups *)

Lemma first_match_appended (bs : list book) (b : book) :
  absent (ID b) bs -> first_match (ID b) (bs ++ [b]) (length bs) b.
Proof.
  intros Habs. split; [by apply list_lookup_middle|]. split; [done|].
  intros j b' Hj Hlook. rewrite lookup_app_l in Hlook by done.
  apply Habs. apply list_elem_of_lookup. by exists j.
Qed.

(** X12. A book created under an identifier that no record carries is
    stored last, and from then on a lookup of that identifier resolves
    to it and answers 200 with the book as it was bound. *)
Theorem created_book_is_found (c c' : Context) (bs : list book) (b : book) :
  BindJSON c = Some b ->
  absent (ID b) bs ->
  Param c' "id" = ID b ->
  getBookById (ID b) (snd (createBook c bs)) = inl (length bs) /\
  bookById c' (snd (createBook c bs)) =
    (Some (IndentedJSON StatusOK (JBook b)), bs ++ [b]).
Proof.
  intros Hb Habs Hp. rewrite (createBook_bound c bs b Hb). simpl.
  pose proof (first_match_appended bs b Habs) as Hfm.
  unfold bookById. rewrite Hp, (getBookById_found _ _ _ _ Hfm).
  split; [done|]. by destruct Hfm as (-> & _).
Qed.

Lemma created_book_is_found_witness :
  let new := Book "5" "Go channels" "Mr. Channel" 3 in
  getBookById (ID new) (snd (createBook (with_book new) books)) = inl (length books) /\
  bookById (mkContext [("id", "5")] [] None) (snd (createBook (with_book new) books)) =
    (Some (IndentedJSON StatusOK (JBook new)), books ++ [new]).
Proof.
  intros new.
  apply (created_book_is_found (with_book new) (mkContext [("id", "5")] [] None) books new).
  - reflexivity.
  - intros b Hb. unfold books in Hb.
    repeat (apply elem_of_cons in Hb as [->|Hb]; [discriminate|]).
    by apply not_elem_of_nil in Hb.
  - reflexivity.
Defined.

Lemma bookById_after_update
    (c : Context) (bs : list book) (id : string) (i : nat) (b : book) (q : Z) :
  Param c "id" = id ->
  first_match id bs i b ->
  bookById c (<[i := set_Quantity q b]> bs) =
    (Some (IndentedJSON StatusOK (JBook (set_Quantity q b))),
     <[i := set_Quantity q b]> bs).
Proof.
  intros Hp Hfm. pose proof Hfm as (Hi & _).
  unfold bookById. rewrite Hp.
  rewrite (getBookById_IDs _ bs id (identity_IDs _ _ (identity_insert bs i b q Hi))).
  rewrite (getBookById_found id bs i b Hfm).
  by rewrite list_lookup_insert_eq by (by apply lookup_lt_Some with b).
Qed.

(** X13. What a successful checkout or return reports is what the slice
    then holds: a lookup of the same identifier right after answers 200
    with the very record of the checkout's "data" entry, and with the
    very response of the return. *)
Theorem success_reports_stored_record
    (c c' : Context) (bs bs' : list book) (r : Response) (id : string) :
  GetQuery c "id" = Some id ->
  Param c' "id" = id ->
  status r = StatusOK ->
  (checkoutBook c bs = (Some r, bs') ->
   exists b' : book,
     body r = H [("message", JString "success"); ("data", JBook b')] /\
     bookById c' bs' = (Some (IndentedJSON StatusOK (JBook b')), bs')) /\
  (returnBook c bs = (Some r, bs') ->
   bookById c' bs' = (Some r, bs')).
Proof.
  intros Hq Hp Hok. split; intros Hrun.
  - destruct (checkoutBook_OK_inv c bs bs' r Hrun Hok) as (id' & i & b & Hq' & Hfm & ->).
    assert (id' = id) as -> by congruence.
    rewrite (checkoutBook_resolved c bs id Hq i b Hfm) in Hrun.
    destruct (decide (Quantity b <= 0)).
    + injection Hrun as <- _. discriminate Hok.
    + simpl in Hrun. injection Hrun as <-. eexists. split; [reflexivity|].
      apply (bookById_after_update c' bs id i b _ Hp Hfm).
  - destruct (returnBook_OK_inv c bs bs' r Hrun Hok) as (id' & i & b & Hq' & Hfm & ->).
    assert (id' = id) as -> by congruence.
    rewrite (returnBook_resolved c bs id Hq i b Hfm) in Hrun.
    simpl in Hrun. injection Hrun as <-.
    apply (bookById_after_update c' bs id i b _ Hp Hfm).
Qed.

Lemma success_reports_stored_record_witness :
  bookById (mkContext [("id", "1")] [] None) (snd (returnBook (with_id "1") books)) =
    (Some (IndentedJSON StatusOK (JBook (Book "1" "Golang pointers" "Mr. Golang" 3))),
     snd (returnBook (with_id "1") books)).
Proof.
  apply (success_reports_stored_record (with_id "1") (mkContext [("id", "1")] [] None)
           books (snd (returnBook (with_id "1") books))
           (IndentedJSON StatusOK (JBook (Book "1" "Golang pointers" "Mr. Golang" 3)))
           "1"); reflexivity.
Defined.

(** X14. Identifiers that are unique stay unique under every registered
    handler, with one exception: a create whose body binds an identifier
    the slice already holds. *)
Theorem unique_ids_kept
    (m p : string) (h : Handler) (c : Context) (bs : list book) :
  (m, p, h) ∈ routes ->
  NoDup (ID <$> bs) ->
  NoDup (ID <$> snd (h c bs)) <->
  (forall b : book,
      (m, p) = ("POST", "/books") -> BindJSON c = Some b -> absent (ID b) bs).
Proof.
  intros Hin Hnd. route_cases Hin.
  - split; [by intros _ b [=]|done].
  - unfold createBook. destruct (BindJSON c) as [b|]; simpl.
    + rewrite fmap_app, NoDup_app. split.
      * intros (_ & Hdisj & _) b0 _ [= <-] b' Hb' Heq.
        apply (Hdisj (ID b)); [|by apply list_elem_of_singleton].
        rewrite <- Heq. by apply list_elem_of_fmap_2.
      * intros Habs. split; [done|]. split; [|apply NoDup_singleton].
        intros x Hx ->%list_elem_of_singleton.
        apply list_elem_of_fmap in Hx as (b' & Heq & Hb').
        by apply (Habs b eq_refl eq_refl b' Hb').
    + split; [by intros _ b _ [=]|done].
  - split; [by intros _ b [=]|intros _].
    unfold bookById. destruct (getBookById _ bs) as [i|]; [|done].
    by destruct (bs !! i).
  - split; [by intros _ b [=]|intros _].
    rewrite checkoutBook_adjust. destruct (GetQuery c "id") as [id|]; [|done].
    by rewrite (identity_IDs _ _ (adjust_identity checkout_step id bs)).
  - split; [by intros _ b [=]|intros _].
    rewrite returnBook_adjust. destruct (GetQuery c "id") as [id|]; [|done].
    by rewrite (identity_IDs _ _ (adjust_identity return_step id bs)).
Qed.

Lemma unique_ids_kept_witness :
  NoDup (ID <$> snd (createBook (with_book (Book "5" "Go channels" "Mr. Channel" 3)) books)) <->
  (forall b : book,
      ("POST", "/books") = ("POST", "/books") ->
      BindJSON (with_book (Book "5" "Go channels" "Mr. Channel" 3)) = Some b ->
      absent (ID b) books).
Proof.
  apply (unique_ids_kept "POST" "/books" createBook
           (with_book (Book "5" "Go channels" "Mr. Channel" 3)) books).
  - unfold routes. apply list_elem_of_further, list_elem_of_here.
  - unfold books. simpl. repeat apply NoDup_cons_2; [| | | |apply NoDup_nil_2];
      intros Hin; repeat (apply elem_of_cons in Hin as [Hin|Hin]; [discriminate|]);
      by apply not_elem_of_nil in Hin.
Defined.

(** ** How many checkouts are served *)

Lemma first_match_update (id : string) (bs : list book) (i : nat) (b : book) (q : Z) :
  first_match id bs i b ->
  first_match id (<[i := set_Quantity q b]> bs) i (set_Quantity q b).
Proof.
  intros (Hi & Hid & Hbefore). split.
  - apply list_lookup_insert_eq. by apply lookup_lt_Some with b.
  - split; [done|]. intros j b' Hj Hlook.
    rewrite list_lookup_insert_ne in Hlook by lia. by apply (Hbefore j).
Qed.

(** X15. From a quantity [q] that is not negative, the checkout that
    comes after [k] earlier checkouts of the same identifier answers 200
    when [k < q] and 400 otherwise: exactly [q] checkouts in a row are
    served. *)
Theorem checkout_served_while_in_stock
    (c : Context) (bs : list book) (id : string) (i : nat) (b : book) (k : nat) :
  GetQuery c "id" = Some id ->
  first_match id bs i b ->
  0 <= Quantity b <= GoInt.MaxInt ->
  status <$> fst (checkoutBook c (serve bs (replicate k (checkoutBook, c)))) =
    Some (if decide (Z.of_nat k < Quantity b) then StatusOK else StatusBadRequest).
Proof.
  intros Hq Hfm Hr.
  rewrite (serve_replicate_adjust checkoutBook c checkout_step id)
    by (intros bs'; by rewrite checkoutBook_adjust, Hq).
  rewrite (adjust_first_match _ id bs i b Hfm), (checkout_step_iter k _ Hr).
  rewrite (checkoutBook_resolved c _ id Hq i _ (first_match_update id bs i b _ Hfm)).
  simpl. destruct (decide (Z.of_nat k < Quantity b)).
  - by rewrite decide_False by lia.
  - by rewrite decide_True by lia.
Qed.

Lemma checkout_served_while_in_stock_witness :
  status <$> fst (checkoutBook (with_id "1")
                    (serve books (replicate 1 (checkoutBook, with_id "1")))) = Some StatusOK /\
  status <$> fst (checkoutBook (with_id "1")
                    (serve books (replicate 2 (checkoutBook, with_id "1")))) = Some StatusBadRequest.
Proof.
  split.
  - apply (checkout_served_while_in_stock (with_id "1") books "1" 0
             (Book "1" "Golang pointers" "Mr. Golang" 2) 1).
    + reflexivity.
    + split; [reflexivity|split; [reflexivity|]]. intros j b' Hj. lia.
    + vm_compute. split; discriminate.
  - apply (checkout_served_while_in_stock (with_id "1") books "1" 0
             (Book "1" "Golang pointers" "Mr. Golang" 2) 2).
    + reflexivity.
    + split; [reflexivity|split; [reflexivity|]]. intros j b' Hj. lia.
    + vm_compute. split; discriminate.
Defined.
